(** * Notification relay: a shallow embedding of the Express/Socket.io server

    The development follows the repository file by file:
    - [models/notification.model.js]: the Mongoose schema [notificationModel]
      and the model [notiSchema] ([create], [find]);
    - [config/server.config.js]: the module variable [io], [initSocket], [getIo];
    - [controllers/notification.controller.js]: the handlers [notification]
      and [getNotification];
    - [routes/notification.routes.js] and [index.js]: the router and the
      start-up script.

    Handlers are written in a state-and-exception monad over the process
    state ([World]) and the response object of the request being served.
    An exception does not roll the state back: what a handler did before it
    threw stays done. *)

From Stdlib Require Import String List ZArith NArith QArith Bool Lia.
From Stdlib Require Import DecimalString.
Import ListNotations.
Open Scope string_scope.
Open Scope list_scope.
Open Scope Z_scope.

(** ** JavaScript values received in a request body *)

(** A parsed JSON number: a finite double (its exact rational value; both
    zeros are [Finite 0]) or an overflowed literal such as [1e999]. *)
Inductive JsNumber : Type :=
| Finite (q : Q)
| Infinite (negative : bool).

#[warnings="-register-all"]
Inductive Json : Type :=
| JNull
| JBool (b : bool)
| JNum (n : JsNumber)
| JStr (s : string)
| JArr (items : list Json)
| JObj (members : list (string * Json)).

(** A JavaScript value as the handlers see it: [None] is [undefined]. *)
Definition JsValue : Type := option Json.

(** An object whose properties may hold [undefined], such as the literal
    [{ message, userId }]. *)
Definition JsObject : Type := list (string * JsValue).

Fixpoint member (k : string) (o : list (string * Json)) : JsValue :=
  match o with
  | [] => None
  | (k', v) :: o' => if String.eqb k k' then Some v else member k o'
  end.

Fixpoint prop (k : string) (o : JsObject) : JsValue :=
  match o with
  | [] => None
  | (k', v) :: o' => if String.eqb k k' then v else prop k o'
  end.

(** ECMAScript ToBoolean, which [!v] negates. *)
Definition to_boolean (v : JsValue) : bool :=
  match v with
  | None => false
  | Some JNull => false
  | Some (JBool b) => b
  | Some (JNum (Finite q)) => negb (Qeq_bool q 0%Q)
  | Some (JNum (Infinite _)) => true
  | Some (JStr s) => negb (String.eqb s "")
  | Some (JArr _) => true
  | Some (JObj _) => true
  end.

Definition js_not (v : JsValue) : bool := negb (to_boolean v).

(** ** Errors *)

Inductive Exn : Type :=
| Error (msg : string)                    (* new Error(msg) *)
| ValidationError (invalid : list string) (* Mongoose: the paths that failed *)
| MongoError (msg : string)               (* the driver could not read or write *)
| HeadersSent.                            (* a second response on one request *)

(** ** Stored documents *)

Inductive Bson : Type :=
| BNull
| BString (s : string)
| BBoolean (b : bool)
| BDate (ms : Z)
| BObjectId (n : N)
| BInt (z : Z).

Definition Document : Type := list (string * Bson).

Fixpoint field (k : string) (d : Document) : option Bson :=
  match d with
  | [] => None
  | (k', v) :: d' => if String.eqb k k' then Some v else field k d'
  end.

(** ** models/notification.model.js *)

Inductive SchemaType : Type := TString | TBoolean.

Record SchemaPath : Type := {
  path_name : string;
  path_type : SchemaType;
  path_required : bool;
  path_default : option Json
}.

Record Schema : Type := {
  paths : list SchemaPath;
  timestamps : bool
}.

(** [new mongoose.Schema({ message: {type: String, required: true},
    userId: {type: String}, read: {type: Boolean, default: false} },
    { timestamps: true })] *)
Definition notificationModel : Schema :=
  {| paths :=
       [ {| path_name := "message"; path_type := TString;
            path_required := true; path_default := None |};
         {| path_name := "userId"; path_type := TString;
            path_required := false; path_default := None |};
         {| path_name := "read"; path_type := TBoolean;
            path_required := false; path_default := Some (JBool false) |} ];
     timestamps := true |}.

(** The collection behind a model, and the state of the connection to it:
    [outage = Some e] makes every read and write reject with [MongoError e]. *)
Record Store : Type := {
  collection : list Document;
  outage : option string
}.

(** ** Socket.io objects *)

(** The listeners the repository attaches to a socket. *)
Inductive Listener : Type :=
| LogServerDisconnected.  (* () => { console.log("Server Disconnected...") } *)

Record Socket : Type := {
  sock_id : N;
  sock_listeners : list (string * Listener);
  sock_inbox : list (string * Document)     (* packets sent to this client *)
}.

(** The listeners the repository attaches to the server. *)
Inductive ServerListener : Type :=
| OnConnection.           (* the arrow function given to io.on("connection") *)

Record Server : Type := {
  cors_origin : string;
  server_listeners : list (string * ServerListener);
  sockets : list Socket
}.

(** ** The process *)

Inductive LogEntry : Type :=
| LogText (s : string)
| LogValues (vs : list JsValue).

Inductive Method : Type := GET | POST.

Inductive Handler : Type :=
| HNotification       (* controllers: notification *)
| HGetNotification    (* controllers: getNotification *)
| HHello.             (* index.js: (req, res) => res.send("Hello World!") *)

Record Route : Type := {
  route_method : Method;
  route_path : string;
  route_handler : Handler
}.

(** A suspended async function waiting on the event loop. *)
Inductive Task : Type :=
| ResumeInitSocket.   (* initSocket, after [await import("socket.io")] *)

Record World : Type := {
  db : Store;                (* the "Notification" collection *)
  next_oid : N;              (* the driver's ObjectId generator *)
  clock : Z;                 (* Date.now() *)
  io : option Server;        (* [let io;] in config/server.config.js *)
  console : list LogEntry;   (* lines written by console.log *)
  routes : list Route;       (* routes registered on [app] *)
  listening : bool;          (* server.listen was called *)
  pending : list Task        (* promise continuations not yet run *)
}.

Definition with_db (w : World) (s : Store) : World :=
  {| db := s; next_oid := next_oid w; clock := clock w; io := io w;
     console := console w; routes := routes w; listening := listening w;
     pending := pending w |}.

Definition with_next_oid (w : World) (n : N) : World :=
  {| db := db w; next_oid := n; clock := clock w; io := io w;
     console := console w; routes := routes w; listening := listening w;
     pending := pending w |}.

Definition with_io (w : World) (s : option Server) : World :=
  {| db := db w; next_oid := next_oid w; clock := clock w; io := s;
     console := console w; routes := routes w; listening := listening w;
     pending := pending w |}.

Definition with_console (w : World) (c : list LogEntry) : World :=
  {| db := db w; next_oid := next_oid w; clock := clock w; io := io w;
     console := c; routes := routes w; listening := listening w;
     pending := pending w |}.

Definition with_routes (w : World) (r : list Route) : World :=
  {| db := db w; next_oid := next_oid w; clock := clock w; io := io w;
     console := console w; routes := r; listening := listening w;
     pending := pending w |}.

Definition with_listening (w : World) (b : bool) : World :=
  {| db := db w; next_oid := next_oid w; clock := clock w; io := io w;
     console := console w; routes := routes w; listening := b;
     pending := pending w |}.

Definition with_pending (w : World) (p : list Task) : World :=
  {| db := db w; next_oid := next_oid w; clock := clock w; io := io w;
     console := console w; routes := routes w; listening := listening w;
     pending := p |}.

(** ** HTTP responses *)

Inductive Data : Type :=
| OneDoc (d : Document)
| ManyDocs (ds : list Document).

(** The JSON object the handlers answer with:
    [{ message: ..., success: ..., data: ... }], [data] being optional. *)
Record Envelope : Type := {
  message : string;
  success : bool;
  data : option Data
}.

Inductive Body : Type :=
| JsonBody (e : Envelope)    (* res.json(e) *)
| TextBody (s : string).     (* res.send(s) *)

Record Response : Type := {
  status : Z;
  body : Body
}.

Record Request : Type := {
  req_method : Method;
  req_path : string;
  req_body : list (string * Json)    (* after express.json() *)
}.

(** What a handler runs against: the process and its [res] object
    ([None] while nothing has been sent). *)
Record Ctx : Type := {
  world : World;
  res : option Response
}.

(** ** The effect monad *)

Definition Eff (S A : Type) : Type := S -> S * (Exn + A).

Definition ret {S A : Type} (a : A) : Eff S A := fun s => (s, inr a).

Definition bind {S A B : Type} (m : Eff S A) (k : A -> Eff S B) : Eff S B :=
  fun s =>
    match m s with
    | (s', inl e) => (s', inl e)
    | (s', inr a) => k a s'
    end.

Definition throw {S A : Type} (e : Exn) : Eff S A := fun s => (s, inl e).

(** [try { m } catch (error) { h error }] *)
Definition try_catch {S A : Type} (m : Eff S A) (h : Exn -> Eff S A) : Eff S A :=
  fun s =>
    match m s with
    | (s', inl e) => h e s'
    | (s', inr a) => (s', inr a)
    end.

Definition gets {S A : Type} (f : S -> A) : Eff S A := fun s => (s, inr (f s)).

Definition modify {S : Type} (f : S -> S) : Eff S unit := fun s => (f s, inr tt).

(** Run a computation on the process inside a request context. *)
Definition in_world {A : Type} (m : Eff World A) : Eff Ctx A :=
  fun c =>
    match m (world c) with
    | (w', r) => ({| world := w'; res := res c |}, r)
    end.

Declare Scope eff_scope.
Delimit Scope eff_scope with eff.
Notation "x <- m ;; k" := (bind m (fun x => k))
  (at level 61, m at next level, right associativity) : eff_scope.
Notation "m ;;; k" := (bind m (fun _ => k))
  (at level 61, right associativity) : eff_scope.
Open Scope eff_scope.

Definition console_log (e : LogEntry) : Eff World unit :=
  modify (fun w => with_console w (console w ++ [e])).

(** ** The process of seederadmin.js *)

(** The seeding script is a process of its own: the "users" collection,
    the driver's ObjectId generator, and the two output streams. *)
Record Seeder : Type := {
  users : Store;
  user_oid : N;
  stdout : list string;              (* console.log *)
  stderr : list (string * Exn)       (* console.error(text, err) *)
}.

(** How a computation of the script ends: it returns, it throws, or the
    process exits, which no [catch] intercepts. *)
Inductive Outcome (A : Type) : Type :=
| Returned (a : A)
| Thrown (e : Exn)
| Exited (code : Z).

Arguments Returned {A} a.
Arguments Thrown {A} e.
Arguments Exited {A} code.

Definition Proc (A : Type) : Type := Seeder -> Seeder * Outcome A.

Definition proc_ret {A : Type} (a : A) : Proc A := fun s => (s, Returned a).

Definition proc_bind {A B : Type} (m : Proc A) (k : A -> Proc B) : Proc B :=
  fun s =>
    match m s with
    | (s', Returned a) => k a s'
    | (s', Thrown e) => (s', Thrown e)
    | (s', Exited code) => (s', Exited code)
    end.

(** [try { m } catch (err) { h err }] *)
Definition proc_try {A : Type} (m : Proc A) (h : Exn -> Proc A) : Proc A :=
  fun s =>
    match m s with
    | (s', Thrown e) => h e s'
    | other => other
    end.

(** [process.exit(code)] *)
Definition process_exit {A : Type} (code : Z) : Proc A :=
  fun s => (s, Exited code).

Definition seeder_log (line : string) : Proc unit :=
  fun s =>
    ({| users := users s; user_oid := user_oid s;
        stdout := stdout s ++ [line]; stderr := stderr s |}, Returned tt).

Definition seeder_error (text : string) (err : Exn) : Proc unit :=
  fun s =>
    ({| users := users s; user_oid := user_oid s;
        stdout := stdout s; stderr := stderr s ++ [(text, err)] |},
     Returned tt).

(** A number formatter to run the model on concrete requests. It prints
    integers and the infinities as JavaScript does and other numbers as a
    fraction; every general statement below holds for any formatter. *)
Definition show_number (n : JsNumber) : string :=
  match n with
  | Infinite false => "Infinity"
  | Infinite true => "-Infinity"
  | Finite q =>
      let r := Qred q in
      match Qden r with
      | 1%positive => NilZero.string_of_int (Z.to_int (Qnum r))
      | d => NilZero.string_of_int (Z.to_int (Qnum r)) ++ "/"
             ++ NilZero.string_of_int (Z.to_int (Z.pos d))
      end
  end.

Section Relay.

(** Number.prototype.toString, which the String cast of Mongoose calls on a
    number; the development does not depend on the text it produces. *)
Variable number_to_string : JsNumber -> string.

(** ** Mongoose: casting, validation, create and find *)

(** The String cast: [null] stays [null]; an object carrying a non-empty
    string [_id] becomes that string; values with a [toString] of their own
    (strings, numbers, booleans) become its result; arrays and plain objects
    are a CastError ([None]). *)
Definition castString (v : Json) : option Bson :=
  match v with
  | JNull => Some BNull
  | JStr s => Some (BString s)
  | JNum n => Some (BString (number_to_string n))
  | JBool b => Some (BString (if b then "true" else "false"))
  | JArr _ => None
  | JObj o =>
      match member "_id" o with
      | Some (JStr s) => if String.eqb s "" then None else Some (BString s)
      | _ => None
      end
  end.

(** The Boolean cast: [true, "true", 1, "1", "yes"] and
    [false, "false", 0, "0", "no"] convert; [null] stays; the rest is a
    CastError. *)
Definition castBoolean (v : Json) : option Bson :=
  match v with
  | JNull => Some BNull
  | JBool b => Some (BBoolean b)
  | JNum (Finite q) =>
      if Qeq_bool q 1%Q then Some (BBoolean true)
      else if Qeq_bool q 0%Q then Some (BBoolean false)
      else None
  | JNum (Infinite _) => None
  | JStr s =>
      if String.eqb s "true" || String.eqb s "1" || String.eqb s "yes"
      then Some (BBoolean true)
      else if String.eqb s "false" || String.eqb s "0" || String.eqb s "no"
      then Some (BBoolean false)
      else None
  | JArr _ => None
  | JObj _ => None
  end.

Definition cast (t : SchemaType) (v : Json) : option Bson :=
  match t with
  | TString => castString v
  | TBoolean => castBoolean v
  end.

(** The [required] validator of each schema type. *)
Definition checkRequired (t : SchemaType) (v : Bson) : bool :=
  match t, v with
  | TString, BString s => negb (String.eqb s "")
  | TBoolean, BBoolean _ => true
  | _, _ => false
  end.

Inductive PathResult : Type :=
| PathAbsent
| PathValue (v : Bson)
| PathInvalid.

(** One schema path applied to the object given to [create]: the supplied
    value or else the default, cast to the path's type, then the [required]
    validator. *)
Definition apply_path (p : SchemaPath) (input : JsObject) : PathResult :=
  let given :=
    match prop (path_name p) input with
    | Some j => Some j
    | None => path_default p
    end in
  match given with
  | None => if path_required p then PathInvalid else PathAbsent
  | Some j =>
      match cast (path_type p) j with
      | None => PathInvalid
      | Some v =>
          if path_required p && negb (checkRequired (path_type p) v)
          then PathInvalid
          else PathValue v
      end
  end.

Fixpoint invalid_paths (ps : list SchemaPath) (input : JsObject) : list string :=
  match ps with
  | [] => []
  | p :: ps' =>
      match apply_path p input with
      | PathInvalid => path_name p :: invalid_paths ps' input
      | _ => invalid_paths ps' input
      end
  end.

Fixpoint set_paths (ps : list SchemaPath) (input : JsObject) : Document :=
  match ps with
  | [] => []
  | p :: ps' =>
      match apply_path p input with
      | PathValue v => (path_name p, v) :: set_paths ps' input
      | _ => set_paths ps' input
      end
  end.

(** [new Model(input)] followed by the timestamps of the first save: the
    schema's paths, a fresh [_id], [createdAt] and [updatedAt] when the schema
    asks for them, and the version key. The order of keys is not relied on. *)
Definition new_document (sch : Schema) (input : JsObject) (oid : N) (now : Z)
  : Document :=
  set_paths (paths sch) input
  ++ [("_id", BObjectId oid)]
  ++ (if timestamps sch
      then [("createdAt", BDate now); ("updatedAt", BDate now)]
      else [])
  ++ [("__v", BInt 0)].

(** [Model.create(input)]: build the document (this draws an ObjectId),
    validate it, insert it, resolve with it. *)
Definition create (sch : Schema) (input : JsObject) : Eff World Document :=
  oid <- gets next_oid ;;
  modify (fun w => with_next_oid w (N.succ oid)) ;;;
  now <- gets clock ;;
  match invalid_paths (paths sch) input with
  | (_ :: _) as bad => throw (ValidationError bad)
  | [] =>
      st <- gets db ;;
      match outage st with
      | Some e => throw (MongoError e)
      | None =>
          let doc := new_document sch input oid now in
          modify (fun w =>
            with_db w {| collection := collection st ++ [doc];
                         outage := outage st |}) ;;;
          ret doc
      end
  end.

(** [Model.find()]: every document of the collection. *)
Definition find : Eff World (list Document) :=
  st <- gets db ;;
  match outage st with
  | Some e => throw (MongoError e)
  | None => ret (collection st)
  end.

(** [const notiSchema = new mongoose.model("Notification", notificationModel)] *)
Definition notiSchema_create : JsObject -> Eff World Document :=
  create notificationModel.

Definition notiSchema_find : Eff World (list Document) := find.

(** ** Socket.io: emit, connection and close *)

Definition deliver (event : string) (payload : Document) (s : Socket) : Socket :=
  {| sock_id := sock_id s;
     sock_listeners := sock_listeners s;
     sock_inbox := sock_inbox s ++ [(event, payload)] |}.

(** [io.emit(event, payload)]: one packet to every connected socket. *)
Definition emit (srv : Server) (event : string) (payload : Document) : Server :=
  {| cors_origin := cors_origin srv;
     server_listeners := server_listeners srv;
     sockets := map (deliver event payload) (sockets srv) |}.

(** [io.emit] as an effect on the module variable that holds [srv]. *)
Definition io_emit (event : string) (payload : Document) : Eff World unit :=
  modify (fun w =>
    match io w with
    | Some srv => with_io w (Some (emit srv event payload))
    | None => w
    end).

(** [socket.on(event, l)] *)
Definition socket_on (s : Socket) (event : string) (l : Listener) : Socket :=
  {| sock_id := sock_id s;
     sock_listeners := sock_listeners s ++ [(event, l)];
     sock_inbox := sock_inbox s |}.

(** [io.on(event, l)] *)
Definition server_on (srv : Server) (event : string) (l : ServerListener)
  : Server :=
  {| cors_origin := cors_origin srv;
     server_listeners := server_listeners srv ++ [(event, l)];
     sockets := sockets srv |}.

(** The listeners of a socket subscribed to [event], in subscription order. *)
Definition listeners_for (event : string) (s : Socket) : list Listener :=
  map snd (filter (fun el => String.eqb (fst el) event) (sock_listeners s)).

(** The sockets of a server, or none while there is no server. *)
Definition connected (w : World) : list Socket :=
  match io w with
  | Some srv => sockets srv
  | None => []
  end.

(** ** config/server.config.js *)

(** The one [Server] object the process creates; [io] and every value
    returned by [getIo] alias it. *)
Inductive IoRef : Type := TheIo.

(** [new Server(server, { cors: { origin: "*" } })] *)
Definition new_Server : Server :=
  {| cors_origin := "*"; server_listeners := []; sockets := [] |}.

(** A call of the async function [initSocket(server)]: its body runs up to
    [await import("socket.io")], which comes before the assignment to [io],
    and the rest is left on the event loop. *)
Definition initSocket : Eff World unit :=
  modify (fun w => with_pending w (pending w ++ [ResumeInitSocket])).

(** The rest of [initSocket], run when the import has resolved:
    [io = new Server(...)] and [io.on("connection", ...)]. *)
Definition initSocket_resume : Eff World unit :=
  modify (fun w => with_io w (Some new_Server)) ;;;
  modify (fun w =>
    match io w with
    | Some srv => with_io w (Some (server_on srv "connection" OnConnection))
    | None => w
    end).

(** [(socket) => { console.log("Connected Successfully...");
    socket.on("disconnected", () => {...}) }] *)
Definition on_connection (socket : Socket) : Eff World Socket :=
  console_log (LogText "Connected Successfully...") ;;;
  ret (socket_on socket "disconnected" LogServerDisconnected).

(** [() => { console.log("Server Disconnected...") }] *)
Definition on_disconnected : Eff World unit :=
  console_log (LogText "Server Disconnected...").

(** [getIo]: [if (!io) throw new Error("Socket not initialized...")
    else return io]. *)
Definition getIo : Eff World IoRef :=
  v <- gets io ;;
  match v with
  | None => throw (Error "Socket not initialized...")
  | Some _ => ret TheIo
  end.

(** [r.emit(event, payload)] for a reference obtained from [getIo]. *)
Definition ref_emit (r : IoRef) (event : string) (payload : Document)
  : Eff World unit :=
  match r with
  | TheIo => io_emit event payload
  end.

(** ** What Socket.io does on a new connection and on a closed one *)

Definition run_server_listener (l : ServerListener) (s : Socket)
  : Eff World Socket :=
  match l with
  | OnConnection => on_connection s
  end.

Definition run_listener (l : Listener) : Eff World unit :=
  match l with
  | LogServerDisconnected => on_disconnected
  end.

Fixpoint run_server_listeners (ls : list ServerListener) (s : Socket)
  : Eff World Socket :=
  match ls with
  | [] => ret s
  | l :: ls' => s' <- run_server_listener l s ;; run_server_listeners ls' s'
  end.

Fixpoint run_listeners (ls : list Listener) : Eff World unit :=
  match ls with
  | [] => ret tt
  | l :: ls' => run_listener l ;;; run_listeners ls'
  end.

Definition set_sockets (ss : list Socket) : Eff World unit :=
  modify (fun w =>
    match io w with
    | Some srv =>
        with_io w (Some {| cors_origin := cors_origin srv;
                           server_listeners := server_listeners srv;
                           sockets := ss |})
    | None => w
    end).

(** A client completes the handshake: the server's "connection" listeners
    run on the new socket, which joins the connected sockets. *)
Definition client_connect (id : N) : Eff World unit :=
  v <- gets io ;;
  match v with
  | None => ret tt
  | Some srv =>
      let fresh := {| sock_id := id; sock_listeners := []; sock_inbox := [] |} in
      let ls := map snd (filter (fun el => String.eqb (fst el) "connection")
                                (server_listeners srv)) in
      s <- run_server_listeners ls fresh ;;
      set_sockets (sockets srv ++ [s])
  end.

(** The transport of socket [id] closes: the socket leaves the connected
    sockets and its "disconnect" listeners run. *)
Definition client_disconnect (id : N) : Eff World unit :=
  v <- gets io ;;
  match v with
  | None => ret tt
  | Some srv =>
      match filter (fun s => N.eqb (sock_id s) id) (sockets srv) with
      | [] => ret tt
      | s :: _ =>
          set_sockets (filter (fun s => negb (N.eqb (sock_id s) id))
                              (sockets srv)) ;;;
          run_listeners (listeners_for "disconnect" s)
      end
  end.

(** ** controllers/notification.controller.js *)

(** [res.status(code).json(e)] *)
Definition res_json (code : Z) (e : Envelope) : Eff Ctx unit :=
  fun c =>
    match res c with
    | Some _ => (c, inl HeadersSent)
    | None =>
        ({| world := world c;
            res := Some {| status := code; body := JsonBody e |} |}, inr tt)
    end.

(** [res.send(s)] *)
Definition res_send (s : string) : Eff Ctx unit :=
  fun c =>
    match res c with
    | Some _ => (c, inl HeadersSent)
    | None =>
        ({| world := world c;
            res := Some {| status := 200; body := TextBody s |} |}, inr tt)
    end.

(** ToBoolean of an array: an object, hence [true]. *)
Definition array_to_boolean {A : Type} (l : list A) : bool := true.

Definition notification (req : Request) : Eff Ctx unit :=
  let message := member "message" (req_body req) in
  let userId := member "userId" (req_body req) in
  in_world (console_log (LogValues [message; userId])) ;;;
  if js_not message || js_not userId then
    res_json 400 {| message := "Bad Request"; success := false; data := None |}
  else
    newNotification <-
      in_world (notiSchema_create [("message", message); ("userId", userId)]) ;;
    io <- in_world getIo ;;
    in_world (ref_emit io "notification" newNotification) ;;;
    res_json 201 {| message := "Notification Sent Successfully";
                    success := true;
                    data := Some (OneDoc newNotification) |}.

Definition getNotification (req : Request) : Eff Ctx unit :=
  try_catch
    (notification <- in_world notiSchema_find ;;
     if negb (array_to_boolean notification)
        || Nat.eqb (length notification) 0
     then
       res_json 404 {| message := "No Notification Found"; success := false;
                       data := None |}
     else
       res_json 200 {| message := "Notification Sent Successfully";
                       success := true;
                       data := Some (ManyDocs notification) |})
    (fun error =>
       res_json 500 {| message := "Internal Server Error"; success := false;
                       data := None |}).

(** ** routes/notification.routes.js *)

(** [router.post("/", notification); router.get("/", getNotification)] *)
Definition notificationRoute : list Route :=
  [ {| route_method := POST; route_path := "/";
       route_handler := HNotification |};
    {| route_method := GET; route_path := "/";
       route_handler := HGetNotification |} ].

(** ** index.js *)

(** [app.use(prefix, router)]: the router's routes under [prefix]; the
    router's own "/" is the prefix itself. *)
Definition mount (prefix : string) (router : list Route) : list Route :=
  map (fun r =>
         {| route_method := route_method r;
            route_path := if String.eqb (route_path r) "/" then prefix
                          else prefix ++ route_path r;
            route_handler := route_handler r |})
      router.

Definition app_use (prefix : string) (router : list Route) : Eff World unit :=
  modify (fun w => with_routes w (routes w ++ mount prefix router)).

Definition app_get (path : string) (h : Handler) : Eff World unit :=
  modify (fun w =>
    with_routes w (routes w ++ [ {| route_method := GET; route_path := path;
                                    route_handler := h |} ])).

Definition server_listen : Eff World unit :=
  modify (fun w => with_listening w true).

(** The module body of index.js, top to bottom. [initSocket(server)] is
    called and its promise dropped. [connectDB()] (config/db.js) and the three
    middlewares change nothing this model records: whether the database
    answers is the [outage] field of the store. *)
Definition main : Eff World unit :=
  initSocket ;;;
  app_use "/notification" notificationRoute ;;;
  app_get "/" HHello ;;;
  server_listen.

(** ** The event loop *)

Definition method_eqb (a b : Method) : bool :=
  match a, b with
  | GET, GET => true
  | POST, POST => true
  | _, _ => false
  end.

Definition route_for (req : Request) (w : World) : option Route :=
  List.find (fun r => method_eqb (route_method r) (req_method req)
                      && String.eqb (route_path r) (req_path req))
            (routes w).

Definition run_handler (h : Handler) (req : Request) : Eff Ctx unit :=
  match h with
  | HNotification => notification req
  | HGetNotification => getNotification req
  | HHello => res_send "Hello World!"
  end.

(** How a request ended: never accepted, matched by no route, or given to a
    handler, which wrote [sent] (or nothing) and whose promise settled with
    [settled]. *)
Inductive Served : Type :=
| Refused
| Unrouted
| Ran (sent : option Response) (settled : Exn + unit).

Definition serve (req : Request) (w : World) : World * Served :=
  if listening w then
    match route_for req w with
    | None => (w, Unrouted)
    | Some r =>
        match run_handler (route_handler r) req {| world := w; res := None |} with
        | (c, r') => (world c, Ran (res c) r')
        end
    end
  else (w, Refused).

Definition run_task (t : Task) : Eff World unit :=
  match t with
  | ResumeInitSocket => initSocket_resume
  end.

Inductive Event : Type :=
| Tick                        (* the oldest suspended task resumes *)
| Incoming (req : Request)    (* an HTTP request arrives *)
| Connect (id : N)            (* a Socket.io client connects *)
| Disconnect (id : N).        (* the transport of a socket closes *)

Definition step (ev : Event) (w : World) : World * list Served :=
  match ev with
  | Tick =>
      match pending w with
      | [] => (w, [])
      | t :: ts => (fst (run_task t (with_pending w ts)), [])
      end
  | Incoming req => let (w', s) := serve req w in (w', [s])
  | Connect id => (fst (client_connect id w), [])
  | Disconnect id => (fst (client_disconnect id w), [])
  end.

Fixpoint run (evs : list Event) (w : World) : World * list Served :=
  match evs with
  | [] => (w, [])
  | ev :: evs' =>
      let (w1, out1) := step ev w in
      let (w2, out2) := run evs' w1 in
      (w2, out1 ++ out2)
  end.

(** The process before index.js runs. *)
Definition boot (st : Store) (oid : N) (now : Z) : World :=
  {| db := st; next_oid := oid; clock := now; io := None; console := [];
     routes := []; listening := false; pending := [] |}.


(** * Properties *)

(** A request as a handler receives it: nothing sent yet. *)
Definition fresh (w : World) : Ctx := {| world := w; res := None |}.

(** The world [notification] leaves behind its first line,
    [console.log(message, userId)]. *)
Definition logged (req : Request) (w : World) : World :=
  with_console w
    (console w ++ [LogValues [member "message" (req_body req);
                              member "userId" (req_body req)]]).

(** The object literal [{ message, userId }] built from a request. *)
Definition create_input (req : Request) : JsObject :=
  [("message", member "message" (req_body req));
   ("userId", member "userId" (req_body req))].

Definition bad_request : Response :=
  {| status := 400;
     body := JsonBody {| message := "Bad Request"; success := false;
                         data := None |} |}.

(** ** The ways a handler can end *)

Arguments invalid_paths : simpl never.
Arguments notificationModel : simpl never.
Arguments new_document : simpl never.
Arguments emit : simpl never.

(** The world after a successful [create]. *)
Definition inserted (req : Request) (w : World) : World :=
  with_db (with_next_oid (logged req w) (N.succ (next_oid w)))
    {| collection :=
         collection (db w)
         ++ [new_document notificationModel (create_input req)
               (next_oid w) (clock w)];
       outage := outage (db w) |}.

Definition created (doc : Document) : Response :=
  {| status := 201;
     body := JsonBody {| message := "Notification Sent Successfully";
                         success := true;
                         data := Some (OneDoc doc) |} |}.

Definition not_found : Response :=
  {| status := 404;
     body := JsonBody {| message := "No Notification Found"; success := false;
                         data := None |} |}.

Definition found (docs : list Document) : Response :=
  {| status := 200;
     body := JsonBody {| message := "Notification Sent Successfully";
                         success := true;
                         data := Some (ManyDocs docs) |} |}.

Definition internal_error : Response :=
  {| status := 500;
     body := JsonBody {| message := "Internal Server Error"; success := false;
                         data := None |} |}.


(** ** Concrete scenarios *)

Definition post_json (b : list (string * Json)) : Request :=
  {| req_method := POST; req_path := "/notification"; req_body := b |}.

Definition get_all : Request :=
  {| req_method := GET; req_path := "/notification"; req_body := [] |}.

(** [POST /notification {"message": "hi", "userId": "u1"}] *)
Definition post_hi : Request :=
  post_json [("message", JStr "hi"); ("userId", JStr "u1")].


(** The record the first [post_hi] creates on [started]. *)
Definition hi_doc : Document :=
  [("message", BString "hi"); ("userId", BString "u1");
   ("read", BBoolean false); ("_id", BObjectId 1);
   ("createdAt", BDate 1700000000000); ("updatedAt", BDate 1700000000000);
   ("__v", BInt 0)].

(** A body whose [message] is an object: truthy, but no String. *)
Definition post_object : Request :=
  post_json [("message", JObj [("a", JNum (Finite 1))]);
             ("userId", JStr "u1")].

Definition empty_store : Store := {| collection := []; outage := None |}.

Definition down_store : Store :=
  {| collection := []; outage := Some "ECONNREFUSED" |}.

(** The process once the module body of index.js has run. *)
Definition started : World := fst (main (boot empty_store 1 1700000000000)).

(** ... and once the suspended [initSocket] has resumed. *)
Definition ready : World :=
  fst (initSocket_resume (with_pending started [])).

(** ... with two clients connected. *)
Definition two_clients : World :=
  fst (client_connect 2 (fst (client_connect 1 ready))).

(** [ready] with one stored record. *)
Definition one_record : World :=
  with_db ready {| collection := [hi_doc]; outage := None |}.

(** [ready] with the database unreachable. *)
Definition db_down : World := with_db ready down_store.

(** ** Invariants of the running server *)

(** A stored record as the POST handler writes them: a non-empty string
    [message], a string [userId], [read: false], an id, and equal
    [createdAt] and [updatedAt]. *)
Definition well_formed (d : Document) : Prop :=
  (exists m, field "message" d = Some (BString m) /\ m <> "")
  /\ (exists u, field "userId" d = Some (BString u))
  /\ field "read" d = Some (BBoolean false)
  /\ (exists n, field "_id" d = Some (BObjectId n))
  /\ (exists t, field "createdAt" d = Some (BDate t)
               /\ field "updatedAt" d = Some (BDate t)).




(** ** seederadmin.js *)

(** [new mongoose.Schema({ name: String, email: String, password: String,
    role: { type: String, enum: ["admin", "user"], default: "user" } })];
    the [enum] of [role] is [role_enum]. *)
Definition userSchema : Schema :=
  {| paths :=
       [ {| path_name := "name"; path_type := TString;
            path_required := false; path_default := None |};
         {| path_name := "email"; path_type := TString;
            path_required := false; path_default := None |};
         {| path_name := "password"; path_type := TString;
            path_required := false; path_default := None |};
         {| path_name := "role"; path_type := TString;
            path_required := false; path_default := Some (JStr "user") |} ];
     timestamps := false |}.

Definition role_enum : list string := ["admin"; "user"].

Definition role_path : SchemaPath :=
  {| path_name := "role"; path_type := TString;
     path_required := false; path_default := Some (JStr "user") |}.

(** The enum validator of [role]: a string outside [role_enum] is invalid. *)
Definition role_invalid (input : JsObject) : list string :=
  match apply_path role_path input with
  | PathValue (BString r) =>
      if existsb (String.eqb r) role_enum then [] else ["role"]
  | _ => []
  end.

(** The document has this [email]. *)
Definition has_email (email : string) (d : Document) : bool :=
  match field "email" d with
  | Some (BString e) => String.eqb e email
  | _ => false
  end.

(** [User.findOne({ email })]: the first matching document, or [null]. *)
Definition User_findOne (email : string) : Proc (option Document) :=
  fun s =>
    match outage (users s) with
    | Some e => (s, Thrown (MongoError e))
    | None => (s, Returned (List.find (has_email email) (collection (users s))))
    end.

(** [User.create(input)]: as [create], on the "users" collection and with
    the enum validator; the schema has no timestamps. *)
Definition User_create (input : JsObject) : Proc Document :=
  fun s =>
    let oid := user_oid s in
    let drawn := {| users := users s; user_oid := N.succ oid;
                    stdout := stdout s; stderr := stderr s |} in
    match invalid_paths (paths userSchema) input ++ role_invalid input with
    | (_ :: _) as bad => (drawn, Thrown (ValidationError bad))
    | [] =>
        match outage (users s) with
        | Some e => (drawn, Thrown (MongoError e))
        | None =>
            let doc := new_document userSchema input oid 0 in
            ({| users := {| collection := collection (users s) ++ [doc];
                            outage := outage (users s) |};
                user_oid := N.succ oid;
                stdout := stdout s; stderr := stderr s |}, Returned doc)
        end
    end.

(** The object literal given to [User.create] by the script. *)
Definition admin_input : JsObject :=
  [("name", Some (JStr "Admin"));
   ("email", Some (JStr "admin@admin.com"));
   ("password", Some (JStr "admin@123"));
   ("role", Some (JStr "admin"))].

(** The document that [User.create(admin_input)] stores under id [oid]. *)
Definition admin_doc (oid : N) : Document :=
  [("name", BString "Admin"); ("email", BString "admin@admin.com");
   ("password", BString "admin@123"); ("role", BString "admin");
   ("_id", BObjectId oid); ("__v", BInt 0)].

Section SeederScript.

(** [connectDB] of config/db.js, which the script awaits first. *)
Variable connectDB : Proc unit.

Definition seedAdmin : Proc unit :=
  proc_try
    (proc_bind connectDB (fun _ =>
     proc_bind (User_findOne "admin@admin.com") (fun existingAdmin =>
     proc_bind
       (match existingAdmin with
        | Some _ =>
            proc_bind (seeder_log "Admin already exists. Skipping seed...")
              (fun _ => process_exit 0)
        | None => proc_ret tt
        end) (fun _ =>
     proc_bind (User_create admin_input) (fun _ =>
     proc_bind (seeder_log "Admin seeded successfully...") (fun _ =>
     process_exit 0))))))
    (fun err =>
       proc_bind (seeder_error "Error seeding admin:" err) (fun _ =>
       process_exit 1)).

End SeederScript.

(** A [connectDB] that resolves and leaves the script's state alone. *)
Definition connected_at_once : Proc unit := proc_ret tt.

(** A seeding process that has printed nothing yet. *)
Definition seeder_on (st : Store) (oid : N) : Seeder :=
  {| users := st; user_oid := oid; stdout := []; stderr := [] |}.

(** [notification], run on a fresh response object, as one case analysis:
    the guard, then validation, then the insertion, then [getIo]. *)
Lemma notification_unfold req w :
  notification req (fresh w)
  = if js_not (member "message" (req_body req))
       || js_not (member "userId" (req_body req))
    then ({| world := logged req w; res := Some bad_request |}, inr tt)
    else
      let drawn := with_next_oid (logged req w) (N.succ (next_oid w)) in
      let doc := new_document notificationModel (create_input req)
                   (next_oid w) (clock w) in
      match invalid_paths (paths notificationModel) (create_input req) with
      | b :: bs =>
          ({| world := drawn; res := None |}, inl (ValidationError (b :: bs)))
      | [] =>
          match outage (db w) with
          | Some e => ({| world := drawn; res := None |}, inl (MongoError e))
          | None =>
              match io w with
              | None =>
                  ({| world := inserted req w; res := None |},
                   inl (Error "Socket not initialized..."))
              | Some srv =>
                  ({| world := with_io (inserted req w)
                                 (Some (emit srv "notification" doc));
                      res := Some (created doc) |}, inr tt)
              end
          end
      end.
Proof.
  unfold notification, notiSchema_create, create, getIo, ref_emit, io_emit,
    res_json, in_world, console_log, bind, gets, modify, throw, ret,
    fresh, logged, inserted, created, create_input.
  cbn.
  destruct (js_not (member "message" (req_body req))
            || js_not (member "userId" (req_body req))); [reflexivity|].
  destruct (invalid_paths _ _); cbn; [|reflexivity].
  destruct (outage (db w)); cbn; [reflexivity|].
  destruct (io w) eqn:Hio; cbn; rewrite ?Hio; reflexivity.
Qed.


Lemma notification_invalid req w b bs :
  js_not (member "message" (req_body req))
  || js_not (member "userId" (req_body req)) = false ->
  invalid_paths (paths notificationModel) (create_input req) = b :: bs ->
  notification req (fresh w)
  = ({| world := with_next_oid (logged req w) (N.succ (next_oid w));
        res := None |},
     inl (ValidationError (b :: bs))).
Proof. intros Hg Hbad. rewrite notification_unfold, Hg, Hbad. reflexivity. Qed.

Lemma notification_outage req w e :
  js_not (member "message" (req_body req))
  || js_not (member "userId" (req_body req)) = false ->
  invalid_paths (paths notificationModel) (create_input req) = [] ->
  outage (db w) = Some e ->
  notification req (fresh w)
  = ({| world := with_next_oid (logged req w) (N.succ (next_oid w));
        res := None |},
     inl (MongoError e)).
Proof.
  intros Hg Hok Hout. rewrite notification_unfold, Hg, Hok, Hout. reflexivity.
Qed.



(** [getNotification], run on a fresh response object, as one case
    analysis: it never changes the process and always answers. *)
Lemma getNotification_unfold req w :
  getNotification req (fresh w)
  = match outage (db w) with
    | Some _ => ({| world := w; res := Some internal_error |}, inr tt)
    | None =>
        match collection (db w) with
        | [] => ({| world := w; res := Some not_found |}, inr tt)
        | d :: ds => ({| world := w; res := Some (found (d :: ds)) |}, inr tt)
        end
    end.
Proof.
  unfold getNotification, notiSchema_find, find, try_catch, res_json, in_world,
    bind, gets, throw, ret, fresh, internal_error, not_found, found.
  cbn.
  destruct (outage (db w)); cbn; [reflexivity|].
  destruct (collection (db w)); reflexivity.
Qed.

(** ** Truthiness *)



Lemma guard_truthy m u :
  to_boolean m = true -> to_boolean u = true ->
  js_not m || js_not u = false.
Proof. unfold js_not. intros -> ->. reflexivity. Qed.

Lemma guard_false_inv m u :
  js_not m || js_not u = false ->
  to_boolean m = true /\ to_boolean u = true.
Proof.
  unfold js_not. intros H. apply orb_false_iff in H as [H1 H2].
  apply negb_false_iff in H1. apply negb_false_iff in H2. now split.
Qed.

(** ** The schema on what the handler passes to [create] *)



(** A truthy value that the String cast accepts becomes a string. *)
Lemma castString_truthy j v :
  to_boolean (Some j) = true -> castString j = Some v ->
  exists s, v = BString s.
Proof.
  destruct j as [|b|n|s|l|o]; cbn; intros Ht Hc; try discriminate.
  - injection Hc as <-. eauto.
  - injection Hc as <-. eauto.
  - injection Hc as <-. eauto.
  - destruct (member "_id" o) as [[| | |s| |]|]; try discriminate.
    destruct (String.eqb s ""); [discriminate|]. injection Hc as <-. eauto.
Qed.


(** When [create] rejects, [notification] rejects with the same error and
    writes no response. *)
Lemma notification_write_failure req w e :
  to_boolean (member "message" (req_body req)) = true ->
  to_boolean (member "userId" (req_body req)) = true ->
  snd (notiSchema_create (create_input req) (logged req w)) = inl e ->
  notification req (fresh w)
  = ({| world := with_next_oid (logged req w) (N.succ (next_oid w));
        res := None |}, inl e).
Proof.
  intros Hm Hu Hfail.
  rewrite notification_unfold, (guard_truthy _ _ Hm Hu). cbv zeta.
  unfold notiSchema_create, create, bind, gets, modify, throw, ret in Hfail.
  cbn in Hfail.
  destruct (invalid_paths (paths notificationModel) (create_input req)).
  - cbn in Hfail. destruct (outage (db w)); cbn in Hfail.
    + injection Hfail as <-. reflexivity.
    + discriminate Hfail.
  - cbn in Hfail. injection Hfail as <-. reflexivity.
Qed.

(** The body of any 201 that [notification] writes. *)
Lemma notification_201_body req w c r resp :
  notification req (fresh w) = (c, r) ->
  res c = Some resp ->
  status resp = 201 ->
  exists doc,
    body resp = JsonBody {| message := "Notification Sent Successfully";
                            success := true;
                            data := Some (OneDoc doc) |}.
Proof.
  intros Hrun Hres Hst. rewrite notification_unfold in Hrun.
  destruct (js_not (member "message" (req_body req))
            || js_not (member "userId" (req_body req))).
  { injection Hrun as <- <-. cbn in Hres. injection Hres as <-.
    discriminate Hst. }
  cbv zeta in Hrun.
  destruct (invalid_paths (paths notificationModel) (create_input req)).
  2:{ injection Hrun as <- <-. discriminate Hres. }
  destruct (outage (db w)).
  { injection Hrun as <- <-. discriminate Hres. }
  destruct (io w).
  2:{ injection Hrun as <- <-. discriminate Hres. }
  injection Hrun as <- <-. cbn in Hres. injection Hres as <-.
  eexists. reflexivity.
Qed.

(** ** Claims *)





(** C5. GET /notification answers 404 [{message: "No Notification Found",
    success: false}] on an empty store, 200 with every stored record as
    [data] on a non-empty one, and 500 [{message: "Internal Server Error",
    success: false}] when the store cannot be read. *)
Theorem get_answers_by_store_state req w :
  (outage (db w) = None -> collection (db w) = [] ->
   getNotification req (fresh w)
   = ({| world := w;
         res := Some {| status := 404;
                        body := JsonBody {| message := "No Notification Found";
                                            success := false;
                                            data := None |} |} |}, inr tt))
  /\ (outage (db w) = None -> collection (db w) <> [] ->
      getNotification req (fresh w)
      = ({| world := w;
            res := Some {| status := 200;
                           body := JsonBody
                             {| message := "Notification Sent Successfully";
                                success := true;
                                data := Some (ManyDocs (collection (db w))) |}
                        |} |}, inr tt))
  /\ (forall e, outage (db w) = Some e ->
      getNotification req (fresh w)
      = ({| world := w;
            res := Some {| status := 500;
                           body := JsonBody
                             {| message := "Internal Server Error";
                                success := false;
                                data := None |} |} |}, inr tt)).
Proof.
  rewrite getNotification_unfold. repeat split.
  - intros -> ->. reflexivity.
  - intros -> Hne. destruct (collection (db w)); [contradiction|reflexivity].
  - intros e ->. reflexivity.
Qed.

(** C6, evaluated. [getIo] throws "Socket not initialized..." while [io] is
    unset. The module body of index.js calls [initSocket] first, but the
    call only suspends at its [await]: when the body has finished, the POST
    route is registered and the server listens while [io] is still unset. A
    request served before the suspended task resumes stores its record and
    then meets the error; served after it, the same request is answered 201. *)
Theorem routes_reachable_before_io_is_set st oid now :
  getIo (boot st oid now)
  = (boot st oid now, inl (Error "Socket not initialized..."))
  /\ io (fst (main (boot st oid now))) = None
  /\ pending (fst (main (boot st oid now))) = [ResumeInitSocket]
  /\ listening (fst (main (boot st oid now))) = true
  /\ route_for post_hi (fst (main (boot st oid now)))
     = Some {| route_method := POST; route_path := "/notification";
               route_handler := HNotification |}
  /\ run [Incoming post_hi] started
     = (inserted post_hi started,
        [Ran None (inl (Error "Socket not initialized..."))])
  /\ collection (db (inserted post_hi started)) = [hi_doc]
  /\ snd (run [Tick; Incoming post_hi] started)
     = [Ran (Some (created hi_doc)) (inr tt)].
Proof. repeat split; reflexivity. Qed.

(** C7, evaluated. The connection handler subscribes every socket to
    "disconnected", an event Socket.io never emits, and to nothing else: no
    socket has a "disconnect" listener. When a client connects and its
    transport closes, Socket.io drops the socket but the close callback does
    not run: the console holds the connection line only. *)
Theorem close_callback_never_runs id :
  (forall s w, on_connection s w
     = (with_console w (console w ++ [LogText "Connected Successfully..."]),
        inr (socket_on s "disconnected" LogServerDisconnected)))
  /\ (forall s, listeners_for "disconnect"
                  (socket_on s "disconnected" LogServerDisconnected)
                = listeners_for "disconnect" s)
  /\ connected (fst (client_connect id ready))
     = [ {| sock_id := id;
            sock_listeners := [("disconnected", LogServerDisconnected)];
            sock_inbox := [] |} ]
  /\ console (fst (client_connect id ready))
     = [LogText "Connected Successfully..."]
  /\ connected (fst (client_disconnect id (fst (client_connect id ready))))
     = []
  /\ console (fst (client_disconnect id (fst (client_connect id ready))))
     = [LogText "Connected Successfully..."].
Proof.
  split; [reflexivity|].
  split.
  { intros s. unfold listeners_for, socket_on. cbn.
    rewrite filter_app, map_app. cbn. apply app_nil_r. }
  split; [reflexivity|]. split; [reflexivity|].
  unfold client_disconnect, client_connect, bind, gets, set_sockets, modify.
  cbn. rewrite !N.eqb_refl. cbn.
  split; reflexivity.
Qed.


(** C9. A GET /notification answered 200 carries the message
    "Notification Sent Successfully", the very message of a POST answered
    201. *)
Theorem get_success_reuses_post_message req w c r resp :
  getNotification req (fresh w) = (c, r) ->
  res c = Some resp ->
  status resp = 200 ->
  exists e,
    body resp = JsonBody e
    /\ message e = "Notification Sent Successfully"
    /\ forall req' w' c' r' resp',
         notification req' (fresh w') = (c', r') ->
         res c' = Some resp' ->
         status resp' = 201 ->
         exists e', body resp' = JsonBody e' /\ message e' = message e.
Proof.
  intros Hrun Hres Hst. rewrite getNotification_unfold in Hrun.
  destruct (outage (db w)).
  { injection Hrun as <- <-. cbn in Hres. injection Hres as <-.
    discriminate Hst. }
  destruct (collection (db w)) as [|d ds].
  { injection Hrun as <- <-. cbn in Hres. injection Hres as <-.
    discriminate Hst. }
  injection Hrun as <- <-. cbn in Hres. injection Hres as <-.
  eexists. split; [reflexivity|]. split; [reflexivity|].
  intros req' w' c' r' resp' Hrun' Hres' Hst'.
  destruct (notification_201_body
              req' w' c' r' resp' Hrun' Hres' Hst') as [doc Hb].
  eexists. split; [exact Hb | reflexivity].
Qed.


(** * Beyond the claims *)

(** ** What one event changes *)

Lemma run_server_listeners_unfold ls s w :
  run_server_listeners ls s w
  = (with_console w
       (console w
        ++ repeat (LogText "Connected Successfully...") (length ls)),
     inr {| sock_id := sock_id s;
            sock_listeners :=
              sock_listeners s
              ++ repeat ("disconnected", LogServerDisconnected) (length ls);
            sock_inbox := sock_inbox s |}).
Proof.
  revert s w. induction ls as [|l ls IH]; intros s w.
  - destruct s, w. unfold with_console. cbn. rewrite !app_nil_r. reflexivity.
  - destruct l. cbn [run_server_listeners run_server_listener].
    unfold bind, on_connection, console_log, modify, ret, bind.
    rewrite IH. unfold with_console, socket_on. cbn.
    rewrite <- !app_assoc. reflexivity.
Qed.

Lemma run_listeners_unfold ls w :
  run_listeners ls w
  = (with_console w
       (console w ++ repeat (LogText "Server Disconnected...") (length ls)),
     inr tt).
Proof.
  revert w. induction ls as [|l ls IH]; intros w.
  - destruct w. unfold with_console. cbn. rewrite app_nil_r. reflexivity.
  - destruct l. cbn [run_listeners run_listener].
    unfold bind, on_disconnected, console_log, modify.
    rewrite IH. unfold with_console. cbn.
    rewrite <- app_assoc. reflexivity.
Qed.

Lemma client_connect_unfold id w :
  client_connect id w
  = match io w with
    | None => (w, inr tt)
    | Some srv =>
        let n := length (filter (fun el => String.eqb (fst el) "connection")
                                (server_listeners srv)) in
        (with_io
           (with_console w
              (console w ++ repeat (LogText "Connected Successfully...") n))
           (Some {| cors_origin := cors_origin srv;
                    server_listeners := server_listeners srv;
                    sockets :=
                      sockets srv
                      ++ [ {| sock_id := id;
                              sock_listeners :=
                                repeat ("disconnected", LogServerDisconnected) n;
                              sock_inbox := [] |} ] |}),
         inr tt)
    end.
Proof.
  unfold client_connect, bind, gets.
  destruct (io w) as [srv|] eqn:Hio; [|reflexivity].
  rewrite run_server_listeners_unfold, length_map.
  unfold set_sockets, modify. cbn. rewrite Hio. reflexivity.
Qed.

Lemma client_disconnect_unfold id w :
  client_disconnect id w
  = match io w with
    | None => (w, inr tt)
    | Some srv =>
        match filter (fun s => N.eqb (sock_id s) id) (sockets srv) with
        | [] => (w, inr tt)
        | s :: _ =>
            (with_console
               (with_io w
                  (Some {| cors_origin := cors_origin srv;
                           server_listeners := server_listeners srv;
                           sockets :=
                             filter (fun s => negb (N.eqb (sock_id s) id))
                                    (sockets srv) |}))
               (console w
                ++ repeat (LogText "Server Disconnected...")
                     (length (listeners_for "disconnect" s))),
             inr tt)
        end
    end.
Proof.
  unfold client_disconnect, bind, gets.
  destruct (io w) as [srv|] eqn:Hio; [|reflexivity].
  destruct (filter (fun s => N.eqb (sock_id s) id) (sockets srv));
    [reflexivity|].
  unfold set_sockets, modify. rewrite Hio, run_listeners_unfold. reflexivity.
Qed.

(** What [notification] leaves of the process, whatever its outcome. *)
Lemma notification_frame req w :
  routes (world (fst (notification req (fresh w)))) = routes w
  /\ listening (world (fst (notification req (fresh w)))) = listening w
  /\ outage (db (world (fst (notification req (fresh w))))) = outage (db w)
  /\ console (world (fst (notification req (fresh w))))
     = console w ++ [LogValues [member "message" (req_body req);
                                member "userId" (req_body req)]]
  /\ (collection (db (world (fst (notification req (fresh w)))))
      = collection (db w)
      \/ (js_not (member "message" (req_body req))
          || js_not (member "userId" (req_body req)) = false
          /\ invalid_paths (paths notificationModel) (create_input req) = []
          /\ collection (db (world (fst (notification req (fresh w)))))
             = collection (db w)
               ++ [new_document notificationModel (create_input req)
                     (next_oid w) (clock w)]))
  /\ (io (world (fst (notification req (fresh w)))) = io w
      \/ exists srv doc,
           io w = Some srv
           /\ io (world (fst (notification req (fresh w))))
              = Some (emit srv "notification" doc)).
Proof.
  rewrite notification_unfold.
  destruct (js_not (member "message" (req_body req))
            || js_not (member "userId" (req_body req))) eqn:Hg.
  { cbn. repeat split; auto. }
  cbv zeta.
  destruct (invalid_paths (paths notificationModel) (create_input req))
    eqn:Hok.
  2:{ cbn. repeat split; auto. }
  destruct (outage (db w)) eqn:Hout.
  { cbn. repeat split; auto. }
  destruct (io w) as [srv|] eqn:Hio.
  - cbn. repeat split; auto. right. eauto.
  - cbn. repeat split; auto.
Qed.

(** A request leaves the process as it was or as [notification] left it. *)
Lemma serve_world req w :
  fst (serve req w) = w
  \/ fst (serve req w) = world (fst (notification req (fresh w))).
Proof.
  unfold serve. destruct (listening w); [|left; reflexivity].
  destruct (route_for req w) as [r|]; [|left; reflexivity].
  destruct (route_handler r); cbn [run_handler].
  - right. change {| world := w; res := None |} with (fresh w).
    destruct (notification req (fresh w)). reflexivity.
  - left. change {| world := w; res := None |} with (fresh w).
    rewrite getNotification_unfold.
    destruct (outage (db w)); [reflexivity|].
    destruct (collection (db w)); reflexivity.
  - left. reflexivity.
Qed.

Lemma run_invariant (P : World -> Prop) :
  (forall ev w, P w -> P (fst (step ev w))) ->
  forall evs w, P w -> P (fst (run evs w)).
Proof.
  intros Hstep evs. induction evs as [|ev evs IH]; intros w Hw.
  - exact Hw.
  - cbn [run]. specialize (Hstep ev w Hw).
    destruct (step ev w) as [w1 out1]. cbn in Hstep.
    specialize (IH w1 Hstep).
    destruct (run evs w1) as [w2 out2]. exact IH.
Qed.

(** The record [create] builds from a request that passed the guard and
    the schema is well formed. *)
Lemma created_record_well_formed req oid now :
  js_not (member "message" (req_body req))
  || js_not (member "userId" (req_body req)) = false ->
  invalid_paths (paths notificationModel) (create_input req) = [] ->
  well_formed (new_document notificationModel (create_input req) oid now).
Proof.
  intros Hg Hok. apply guard_false_inv in Hg as [Hm Hu].
  unfold well_formed, new_document, invalid_paths, set_paths, apply_path,
    create_input, notificationModel in *.
  cbn in *.
  destruct (member "message" (req_body req)) as [jm|]; [|discriminate].
  destruct (member "userId" (req_body req)) as [ju|]; [|discriminate].
  cbn in *.
  destruct (castString jm) as [vm|]; cbn in Hok |- *; [|discriminate Hok].
  destruct vm as [|m| | | |]; cbn in Hok |- *; try discriminate Hok.
  destruct (String.eqb m "") eqn:Em; cbn in Hok |- *; [discriminate Hok|].
  destruct (castString ju) as [vu|] eqn:Ecu; cbn in Hok |- *;
    [|discriminate Hok].
  destruct (castString_truthy ju vu Hu Ecu) as [u ->].
  apply String.eqb_neq in Em.
  repeat split; eauto.
Qed.

Lemma step_store ev w :
  exists added,
    collection (db (fst (step ev w))) = collection (db w) ++ added
    /\ outage (db (fst (step ev w))) = outage (db w)
    /\ Forall well_formed added.
Proof.
  destruct ev as [|req|id|id]; cbn [step].
  - exists []. rewrite app_nil_r.
    destruct (pending w) as [|t ts]; [auto|]. destruct t. cbn. auto.
  - destruct (serve req w) as [w' out] eqn:Hs. cbn [fst].
    assert (Hw : w' = fst (serve req w)) by (rewrite Hs; reflexivity).
    destruct (serve_world req w) as [H | H]; rewrite H in Hw; subst w'.
    + exists []. rewrite app_nil_r. auto.
    + destruct (notification_frame req w) as [_ [_ [Hout [_ [Hc _]]]]].
      destruct Hc as [Hc | [Hg [Hok Hc]]].
      * exists []. rewrite app_nil_r. auto.
      * eexists. split; [exact Hc|]. split; [exact Hout|].
        constructor; [|constructor].
        now apply created_record_well_formed.
  - exists []. rewrite app_nil_r, client_connect_unfold.
    destruct (io w); cbn; auto.
  - exists []. rewrite app_nil_r, client_disconnect_unfold.
    destruct (io w) as [srv|]; [|cbn; auto].
    destruct (filter _ (sockets srv)); cbn; auto.
Qed.

Lemma step_frame ev w :
  routes (fst (step ev w)) = routes w
  /\ listening (fst (step ev w)) = listening w
  /\ (io w <> None -> io (fst (step ev w)) <> None).
Proof.
  destruct ev as [|req|id|id]; cbn [step].
  - destruct (pending w) as [|t ts]; [auto|]. destruct t. cbn.
    repeat split; auto. intros _. discriminate.
  - destruct (serve req w) as [w' out] eqn:Hs. cbn [fst].
    assert (Hw : w' = fst (serve req w)) by (rewrite Hs; reflexivity).
    destruct (serve_world req w) as [H | H]; rewrite H in Hw; subst w'.
    + auto.
    + destruct (notification_frame req w) as [Hr [Hl [_ [_ [_ Hio]]]]].
      repeat split; auto.
      destruct Hio as [-> | [srv [doc [_ ->]]]];
        [auto | intros _; discriminate].
  - rewrite client_connect_unfold.
    destruct (io w) eqn:Hio; cbn; repeat split; auto;
      try congruence; intros _; discriminate.
  - rewrite client_disconnect_unfold.
    destruct (io w) as [srv|] eqn:Hio; [|cbn; repeat split; auto; congruence].
    destruct (filter _ (sockets srv)); cbn; repeat split; auto;
      try congruence; intros _; discriminate.
Qed.



(** ** The handlers *)

(** X1. A record created by a POST answered 201 is listed by the next GET:
    on the process the POST leaves, GET answers 200 with the records stored
    before followed by the new one. *)
Theorem post_then_get_lists_created_record req w c r doc req' :
  notification req (fresh w) = (c, r) ->
  res c = Some {| status := 201;
                  body := JsonBody
                    {| message := "Notification Sent Successfully";
                       success := true;
                       data := Some (OneDoc doc) |} |} ->
  getNotification req' (fresh (world c))
  = ({| world := world c;
        res := Some {| status := 200;
                       body := JsonBody
                         {| message := "Notification Sent Successfully";
                            success := true;
                            data := Some (ManyDocs
                                            (collection (db w) ++ [doc])) |}
                    |} |}, inr tt).
Proof.
  intros Hrun Hres. rewrite notification_unfold in Hrun.
  destruct (js_not (member "message" (req_body req))
            || js_not (member "userId" (req_body req))).
  { injection Hrun as <- <-. discriminate Hres. }
  cbv zeta in Hrun.
  destruct (invalid_paths (paths notificationModel) (create_input req)).
  2:{ injection Hrun as <- <-. discriminate Hres. }
  destruct (outage (db w)) eqn:Hout.
  { injection Hrun as <- <-. discriminate Hres. }
  destruct (io w).
  2:{ injection Hrun as <- <-. discriminate Hres. }
  injection Hrun as <- <-. cbn in Hres. injection Hres as <-.
  rewrite getNotification_unfold. cbn. rewrite Hout.
  destruct (collection (db w)
            ++ [new_document notificationModel (create_input req)
                  (next_oid w) (clock w)]) as [|d ds] eqn:Hc.
  - apply app_eq_nil in Hc as [_ Hc]. discriminate Hc.
  - reflexivity.
Qed.



(** X4. [notification] reads nothing of a request but [message] and
    [userId]: two requests that agree on both are handled identically, so
    other keys of the body ([read], [_id], [createdAt], ...) never reach the
    store. *)
Theorem post_reads_only_message_and_userId req1 req2 w :
  member "message" (req_body req1) = member "message" (req_body req2) ->
  member "userId" (req_body req1) = member "userId" (req_body req2) ->
  notification req1 (fresh w) = notification req2 (fresh w).
Proof.
  intros Hm Hu. rewrite !notification_unfold.
  unfold inserted, logged, create_input. rewrite Hm, Hu. reflexivity.
Qed.

(** ** The running server *)

(** X5. The server only ever appends to the collection: after any sequence
    of events the records stored before are still there, unchanged and in
    the same order, followed by the records created since. *)
Theorem stored_records_are_only_appended evs w :
  exists added,
    collection (db (fst (run evs w))) = collection (db w) ++ added
    /\ outage (db (fst (run evs w))) = outage (db w).
Proof.
  apply (run_invariant
           (fun w' => exists added,
              collection (db w') = collection (db w) ++ added
              /\ outage (db w') = outage (db w))).
  - intros ev w1 [added [Hc Ho]].
    destruct (step_store ev w1) as [more [Hc' [Ho' _]]].
    exists (added ++ more). rewrite Hc', Hc, Ho', Ho, app_assoc. auto.
  - exists []. rewrite app_nil_r. auto.
Qed.

(** X6. If every stored record is well formed (non-empty string [message],
    string [userId], [read: false], an id, equal [createdAt] and
    [updatedAt]), so is every record stored after any sequence of events: no
    request can store a record without [userId] or with [read: true]. *)
Theorem stored_records_stay_well_formed evs w :
  Forall well_formed (collection (db w)) ->
  Forall well_formed (collection (db (fst (run evs w)))).
Proof.
  apply (run_invariant (fun w' => Forall well_formed (collection (db w')))).
  intros ev w1 Hwf.
  destruct (step_store ev w1) as [more [Hc [_ Hmore]]].
  rewrite Hc. apply Forall_app. split; assumption.
Qed.

(** X7. Once [io] is set it stays set: after any sequence of requests,
    connections, disconnections and resumed tasks, [getIo] still returns
    the server and does not throw. *)
Theorem socket_server_stays_initialised evs w :
  io w <> None ->
  io (fst (run evs w)) <> None
  /\ getIo (fst (run evs w)) = (fst (run evs w), inr TheIo).
Proof.
  intros Hio.
  assert (H : io (fst (run evs w)) <> None).
  { revert Hio. apply (run_invariant (fun w' => io w' <> None)).
    intros ev w1 H1. now apply step_frame. }
  split; [exact H|].
  unfold getIo, bind, gets. destruct (io (fst (run evs w))); [reflexivity|].
  contradiction.
Qed.



(** ** The seeding script *)

Lemma admin_input_valid :
  invalid_paths (paths userSchema) admin_input ++ role_invalid admin_input
  = [].
Proof. reflexivity. Qed.

Lemma admin_document oid :
  new_document userSchema admin_input oid 0 = admin_doc oid.
Proof. reflexivity. Qed.

Lemma existsb_find {A : Type} (f : A -> bool) (l : list A) :
  existsb f l = match List.find f l with Some _ => true | None => false end.
Proof.
  induction l as [|a l IH]; [reflexivity|].
  cbn. destruct (f a); [reflexivity | exact IH].
Qed.

(** [seedAdmin] as one case analysis on what [connectDB] did, on whether the
    database answers, and on whether the admin is already there. *)
Lemma seedAdmin_unfold connectDB s :
  seedAdmin connectDB s
  = match connectDB s with
    | (s1, Exited code) => (s1, Exited code)
    | (s1, Thrown e) =>
        ({| users := users s1; user_oid := user_oid s1; stdout := stdout s1;
            stderr := stderr s1 ++ [("Error seeding admin:", e)] |},
         Exited 1)
    | (s1, Returned _) =>
        match outage (users s1) with
        | Some e =>
            ({| users := users s1; user_oid := user_oid s1;
                stdout := stdout s1;
                stderr := stderr s1
                          ++ [("Error seeding admin:", MongoError e)] |},
             Exited 1)
        | None =>
            if existsb (has_email "admin@admin.com") (collection (users s1))
            then
              ({| users := users s1; user_oid := user_oid s1;
                  stdout := stdout s1
                            ++ ["Admin already exists. Skipping seed..."];
                  stderr := stderr s1 |}, Exited 0)
            else
              ({| users := {| collection := collection (users s1)
                                            ++ [admin_doc (user_oid s1)];
                              outage := None |};
                  user_oid := N.succ (user_oid s1);
                  stdout := stdout s1 ++ ["Admin seeded successfully..."];
                  stderr := stderr s1 |}, Exited 0)
        end
    end.
Proof.
  unfold seedAdmin, proc_try, proc_bind.
  destruct (connectDB s) as [s1 [[]|e|code]]; [|reflexivity|reflexivity].
  unfold User_findOne. rewrite existsb_find.
  destruct (outage (users s1)) eqn:Hout; [reflexivity|].
  destruct (List.find (has_email "admin@admin.com") (collection (users s1)));
    [reflexivity|].
  unfold proc_ret, User_create. rewrite admin_input_valid. cbn.
  rewrite Hout, admin_document. reflexivity.
Qed.

(** X10. [seedAdmin] never returns and never lets an error escape: the
    process always exits, with code 0 or 1 unless [connectDB] itself ended
    the process. *)
Theorem seed_always_exits connectDB s :
  exists s' code,
    seedAdmin connectDB s = (s', Exited code)
    /\ (code = 0 \/ code = 1 \/ exists s1, connectDB s = (s1, Exited code)).
Proof.
  rewrite seedAdmin_unfold.
  destruct (connectDB s) as [s1 [[]|e|code]].
  - destruct (outage (users s1)).
    { eexists. eexists. split; [reflexivity|]. right. left. reflexivity. }
    destruct (existsb (has_email "admin@admin.com") (collection (users s1)));
      eexists; eexists; (split; [reflexivity|]); left; reflexivity.
  - eexists. eexists. split; [reflexivity|]. right. left. reflexivity.
  - eexists. eexists. split; [reflexivity|]. right. right.
    eexists. reflexivity.
Qed.

(** X11. When the database is connected and already holds a user with the
    email admin@admin.com, [seedAdmin] creates nothing: it prints "Admin
    already exists. Skipping seed..." and exits with code 0. *)
Theorem seed_skips_existing_admin connectDB s s1 :
  connectDB s = (s1, Returned tt) ->
  outage (users s1) = None ->
  existsb (has_email "admin@admin.com") (collection (users s1)) = true ->
  seedAdmin connectDB s
  = ({| users := users s1; user_oid := user_oid s1;
        stdout := stdout s1 ++ ["Admin already exists. Skipping seed..."];
        stderr := stderr s1 |}, Exited 0).
Proof.
  intros Hc Hout Hex. rewrite seedAdmin_unfold, Hc, Hout, Hex. reflexivity.
Qed.

(** X12. When the database is connected and holds no user with the email
    admin@admin.com, [seedAdmin] appends exactly one user, with name Admin,
    that email and role admin, prints "Admin seeded successfully..." and
    exits with code 0; the users stored before are untouched. *)
Theorem seed_creates_admin_when_absent connectDB s s1 :
  connectDB s = (s1, Returned tt) ->
  outage (users s1) = None ->
  existsb (has_email "admin@admin.com") (collection (users s1)) = false ->
  exists doc,
    seedAdmin connectDB s
    = ({| users := {| collection := collection (users s1) ++ [doc];
                      outage := None |};
          user_oid := N.succ (user_oid s1);
          stdout := stdout s1 ++ ["Admin seeded successfully..."];
          stderr := stderr s1 |}, Exited 0)
    /\ field "name" doc = Some (BString "Admin")
    /\ field "email" doc = Some (BString "admin@admin.com")
    /\ field "role" doc = Some (BString "admin")
    /\ field "_id" doc = Some (BObjectId (user_oid s1)).
Proof.
  intros Hc Hout Hex. rewrite seedAdmin_unfold, Hc, Hout, Hex.
  exists (admin_doc (user_oid s1)). repeat split; reflexivity.
Qed.

(** X13. Seeding is idempotent. If [connectDB] resolves without touching the
    users, then after one run on a reachable database the admin exists, and
    any later run, in a new process on the same users, exits with code 0 and
    leaves the users exactly as they are. *)
Theorem seed_twice_is_seed_once connectDB s s' :
  (forall s0, exists s1,
     connectDB s0 = (s1, Returned tt) /\ users s1 = users s0) ->
  outage (users s) = None ->
  users s' = users (fst (seedAdmin connectDB s)) ->
  existsb (has_email "admin@admin.com")
    (collection (users (fst (seedAdmin connectDB s)))) = true
  /\ users (fst (seedAdmin connectDB s')) = users s'
  /\ snd (seedAdmin connectDB s') = Exited 0.
Proof.
  intros Hconn Hout Hs'.
  assert (Hfirst : outage (users (fst (seedAdmin connectDB s))) = None
                   /\ existsb (has_email "admin@admin.com")
                        (collection (users (fst (seedAdmin connectDB s))))
                      = true).
  { rewrite seedAdmin_unfold.
    destruct (Hconn s) as [s1 [-> Hu]]. rewrite Hu, Hout.
    destruct (existsb (has_email "admin@admin.com") (collection (users s)))
      eqn:Hex; cbn.
    - auto.
    - split; [reflexivity|].
      rewrite existsb_app. cbn. apply orb_true_r. }
  destruct Hfirst as [Hout1 Hex1]. split; [exact Hex1|].
  rewrite <- Hs' in Hout1, Hex1.
  rewrite seedAdmin_unfold.
  destruct (Hconn s') as [s1 [-> Hu]]. rewrite Hu, Hout1, Hex1. cbn.
  split; reflexivity.
Qed.

(** X14. When the database does not answer, or [connectDB] throws,
    [seedAdmin] writes nothing to the users: it reports "Error seeding
    admin:" with the error on the error stream and exits with code 1. *)
Theorem seed_failure_exits_with_1 connectDB s s1 e :
  (connectDB s = (s1, Returned tt) /\ outage (users s1) = Some e ->
   seedAdmin connectDB s
   = ({| users := users s1; user_oid := user_oid s1; stdout := stdout s1;
         stderr := stderr s1 ++ [("Error seeding admin:", MongoError e)] |},
      Exited 1))
  /\ (forall err, connectDB s = (s1, Thrown err) ->
      seedAdmin connectDB s
      = ({| users := users s1; user_oid := user_oid s1; stdout := stdout s1;
            stderr := stderr s1 ++ [("Error seeding admin:", err)] |},
         Exited 1)).
Proof.
  split.
  - intros [Hc Hout]. rewrite seedAdmin_unfold, Hc, Hout. reflexivity.
  - intros err Hc. rewrite seedAdmin_unfold, Hc. reflexivity.
Qed.

End Relay.

(** * The claims on concrete requests *)




(** C5 on an empty store, on a store with one record and on an unreachable
    one. *)
Lemma get_answers_by_store_state_witness :
  getNotification get_all (fresh ready)
  = ({| world := ready; res := Some not_found |}, inr tt)
  /\ getNotification get_all (fresh one_record)
     = ({| world := one_record; res := Some (found [hi_doc]) |}, inr tt)
  /\ getNotification get_all (fresh db_down)
     = ({| world := db_down; res := Some internal_error |}, inr tt).
Proof.
  split; [|split].
  - apply (proj1 (get_answers_by_store_state get_all ready)); reflexivity.
  - apply (proj1 (proj2 (get_answers_by_store_state get_all one_record)));
      [reflexivity | discriminate].
  - apply (proj2 (proj2 (get_answers_by_store_state get_all db_down))
             "ECONNREFUSED").
    reflexivity.
Defined.



(** C9 on a store with one record, against [post_hi]. *)
Lemma get_success_reuses_post_message_witness :
  exists e,
    body (found [hi_doc]) = JsonBody e
    /\ message e = "Notification Sent Successfully"
    /\ exists e', body (created hi_doc) = JsonBody e' /\ message e' = message e.
Proof.
  destruct (get_success_reuses_post_message show_number get_all one_record
              {| world := one_record; res := Some (found [hi_doc]) |}
              (inr tt) (found [hi_doc]) eq_refl eq_refl eq_refl)
    as [e [Hb [Hm Hpost]]].
  exists e. split; [exact Hb|]. split; [exact Hm|].
  apply (Hpost post_hi two_clients
           (fst (notification show_number post_hi (fresh two_clients)))
           (inr tt) (created hi_doc)); reflexivity.
Defined.


(** * The further properties on concrete runs *)

(** X1 on [post_hi] with two clients connected, followed by a GET. *)
Lemma post_then_get_lists_created_record_witness :
  getNotification get_all
    (fresh (world (fst (notification show_number post_hi (fresh two_clients)))))
  = ({| world := world (fst (notification show_number post_hi
                               (fresh two_clients)));
        res := Some {| status := 200;
                       body := JsonBody
                         {| message := "Notification Sent Successfully";
                            success := true;
                            data := Some (ManyDocs
                                            (collection (db two_clients)
                                             ++ [hi_doc])) |} |} |}, inr tt).
Proof.
  apply (post_then_get_lists_created_record show_number post_hi two_clients
           (fst (notification show_number post_hi (fresh two_clients)))
           (inr tt) hi_doc get_all); reflexivity.
Defined.



(** X4 on [post_hi] against a request with another method and path and a
    body that also carries [read] and [_id]. *)
Lemma post_reads_only_message_and_userId_witness :
  notification show_number post_hi (fresh two_clients)
  = notification show_number
      {| req_method := GET; req_path := "/elsewhere";
         req_body := [("read", JBool true); ("message", JStr "hi");
                      ("_id", JStr "forged"); ("userId", JStr "u1")] |}
      (fresh two_clients).
Proof.
  apply (post_reads_only_message_and_userId show_number); reflexivity.
Defined.

(** X6 on a run that stores one record and rejects another. *)
Lemma stored_records_stay_well_formed_witness :
  Forall well_formed
    (collection
       (db (fst (run show_number
                   [Tick; Connect 1; Incoming post_hi; Incoming post_object]
                   started)))).
Proof.
  apply (stored_records_stay_well_formed show_number). constructor.
Defined.

(** X7 on a run from [ready]. *)
Lemma socket_server_stays_initialised_witness :
  io (fst (run show_number
             [Connect 1; Incoming post_hi; Disconnect 1; Tick] ready))
  <> None
  /\ getIo (fst (run show_number
                   [Connect 1; Incoming post_hi; Disconnect 1; Tick] ready))
     = (fst (run show_number
               [Connect 1; Incoming post_hi; Disconnect 1; Tick] ready),
        inr TheIo).
Proof.
  apply (socket_server_stays_initialised show_number). discriminate.
Defined.

(** X11 on a database that already holds the admin. *)
Lemma seed_skips_existing_admin_witness :
  seedAdmin show_number connected_at_once
    (seeder_on {| collection := [admin_doc 1]; outage := None |} 2)
  = ({| users := {| collection := [admin_doc 1]; outage := None |};
        user_oid := 2;
        stdout := ["Admin already exists. Skipping seed..."];
        stderr := [] |}, Exited 0).
Proof.
  apply (seed_skips_existing_admin show_number connected_at_once
           (seeder_on {| collection := [admin_doc 1]; outage := None |} 2)
           (seeder_on {| collection := [admin_doc 1]; outage := None |} 2));
    reflexivity.
Defined.

(** X12 on an empty database. *)
Lemma seed_creates_admin_when_absent_witness :
  exists doc,
    seedAdmin show_number connected_at_once (seeder_on empty_store 1)
    = ({| users := {| collection := collection (users (seeder_on empty_store 1))
                                    ++ [doc];
                      outage := None |};
          user_oid := N.succ (user_oid (seeder_on empty_store 1));
          stdout := stdout (seeder_on empty_store 1)
                    ++ ["Admin seeded successfully..."];
          stderr := stderr (seeder_on empty_store 1) |}, Exited 0)
    /\ field "name" doc = Some (BString "Admin")
    /\ field "email" doc = Some (BString "admin@admin.com")
    /\ field "role" doc = Some (BString "admin")
    /\ field "_id" doc = Some (BObjectId (user_oid (seeder_on empty_store 1))).
Proof.
  apply (seed_creates_admin_when_absent show_number connected_at_once
           (seeder_on empty_store 1) (seeder_on empty_store 1));
    reflexivity.
Defined.

(** X13 on an empty database: a first run, then a second one in a new
    process. *)
Lemma seed_twice_is_seed_once_witness :
  existsb (has_email "admin@admin.com")
    (collection
       (users (fst (seedAdmin show_number connected_at_once
                      (seeder_on empty_store 1))))) = true
  /\ users (fst (seedAdmin show_number connected_at_once
                   (seeder_on {| collection := [admin_doc 1];
                                 outage := None |} 7)))
     = users (seeder_on {| collection := [admin_doc 1]; outage := None |} 7)
  /\ snd (seedAdmin show_number connected_at_once
            (seeder_on {| collection := [admin_doc 1]; outage := None |} 7))
     = Exited 0.
Proof.
  apply (seed_twice_is_seed_once show_number connected_at_once
           (seeder_on empty_store 1)
           (seeder_on {| collection := [admin_doc 1]; outage := None |} 7)).
  - intros s0. exists s0. split; reflexivity.
  - reflexivity.
  - reflexivity.
Defined.

(** X14 on an unreachable database, and on a [connectDB] that throws. *)
Lemma seed_failure_exits_with_1_witness :
  seedAdmin show_number connected_at_once (seeder_on down_store 1)
  = ({| users := down_store; user_oid := 1; stdout := [];
        stderr := [("Error seeding admin:", MongoError "ECONNREFUSED")] |},
     Exited 1)
  /\ seedAdmin show_number (fun s => (s, Thrown (Error "no database")))
       (seeder_on empty_store 1)
     = ({| users := empty_store; user_oid := 1; stdout := [];
           stderr := [("Error seeding admin:", Error "no database")] |},
        Exited 1).
Proof.
  split.
  - apply (proj1 (seed_failure_exits_with_1 show_number connected_at_once
                    (seeder_on down_store 1) (seeder_on down_store 1)
                    "ECONNREFUSED")).
    split; reflexivity.
  - apply (proj2 (seed_failure_exits_with_1 show_number
                    (fun s => (s, Thrown (Error "no database")))
                    (seeder_on empty_store 1) (seeder_on empty_store 1) "")
             (Error "no database")).
    reflexivity.
Defined.
